(** * sonnenbatterie-exporter: the collector of [main.go]

    A shallow embedding of the Prometheus collector of the exporter
    ([newCollector], [Describe], [collectStatus], [collectPowerMeter],
    [collectLatestData], [Collect]) and the properties of one scrape, and of
    the start-up ([run], [main]) and its properties.

    The Go code sends on channels, calls the device client, reads the wall
    clock, logs, and may panic inside [MustNewConstMetric].  All of this is
    threaded through a small state-and-panic monad [M] over a [World]. *)

From Stdlib Require Import ZArith List String Bool Lia.
From Stdlib Require Import PrimFloat SpecFloat FloatOps.
Import ListNotations.

Open Scope Z_scope.
Open Scope string_scope.
Open Scope list_scope.

(** ** Go base types *)

(** [float64] is an IEEE 754 binary64 number. *)
Definition float64 : Set := float.

(** The conversion [float64(i)] of a Go integer: the nearest binary64 number,
    ties to even. *)
Definition float64_of_int (i : Z) : float64 :=
  SF2Prim (binary_normalize prec emax i 0 false).
Arguments float64_of_int : simpl never.

(** A Go [error] value, kept as its message. *)
Definition error : Set := string.

(** A Go result pair [(v, err)]: [Ok v] when [err == nil]. *)
Inductive result (A : Type) : Type :=
| Ok (v : A)
| Err (err : error).
Arguments Ok {A} v.
Arguments Err {A} err.

Definition failed {A : Type} (r : result A) : bool :=
  match r with
  | Ok _ => false
  | Err _ => true
  end.

(** ** Package [time] *)
Module time.

(** A [Duration] counts nanoseconds. *)
Definition Duration : Set := Z.
Definition Nanosecond : Duration := 1.
Definition Second : Duration := 1000000000 * Nanosecond.

End time.

(** ** Package [context] *)
Module context.

Inductive Context : Set :=
| Background
| WithTimeout (parent : Context) (d : time.Duration).

End context.

(** ** Package [prometheus], as far as the collector uses it *)
Module prometheus.

Record Desc : Set := mkDesc {
  fqName : string;
  help : string;
  variableLabels : list string;
  constLabels : list (string * string)
}.

Definition NewDesc (fqName help : string) (variableLabels : list string)
           (constLabels : list (string * string)) : Desc :=
  mkDesc fqName help variableLabels constLabels.

Inductive ValueType : Set :=
| CounterValue
| GaugeValue
| UntypedValue.

Record Metric : Set := mkMetric {
  desc : Desc;
  valType : ValueType;
  value : float64;
  labelValues : list string
}.

(** [NewConstMetric] refuses a number of label values that differs from
    the number of label names of the descriptor. *)
Definition NewConstMetric (d : Desc) (t : ValueType) (v : float64)
           (lvs : list string) : result Metric :=
  if Nat.eqb (List.length lvs) (List.length (variableLabels d))
  then Ok (mkMetric d t v lvs)
  else Err "inconsistent label cardinality".

End prometheus.
Import prometheus.

(** ** Package [api]: the device client *)
Module api.

(** Modelled from the spec: the record types of package [api] are not part
    of the sources at hand.  The fields are the ones [main.go] reads; a
    field that [main.go] converts with [float64(...)] is an integer, a field
    it passes on as it is is a [float64]. *)
Record Status : Set := mkStatus {
  Uac : float64;
  Fac : float64;
  Rsoc : Z;
  Usoc : Z;
  ConsumptionW : Z;
  ProductionW : Z;
  RemainingCapacityWh : Z
}.

Record PowerMeter : Set := mkPowerMeter {
  VL1N : float64;
  VL2N : float64;
  VL3N : float64;
  VL1L2 : float64;
  VL2L3 : float64;
  VL3L1 : float64;
  WL1 : float64;
  WL2 : float64;
  WL3 : float64;
  KwhImported : float64
}.

Record IcStatusT : Set := mkIcStatus {
  SecondsSinceFullCharge : Z
}.

Record LatestData : Set := mkLatestData {
  IcStatus : IcStatusT;
  FullChargeCapacity : Z
}.

(** Modelled from the spec: the client [*api.Sonnenbatterie] is given by
    what its four operations answer: fetch-status, fetch-power-meter
    (production record first, consumption record second),
    fetch-latest-data, and the capability query has-token.  One scrape
    invokes each of them at most once ([Collect_invokes]), so an answer per
    operation describes the client for that scrape. *)
Record Sonnenbatterie : Type := mkSonnenbatterie {
  GetStatus : context.Context -> result Status;
  GetPowerMeter : context.Context -> result (PowerMeter * PowerMeter);
  GetLatestData : context.Context -> result LatestData;
  HasToken : bool
}.

End api.

(** ** The world of one scrape *)

Inductive ApiCall : Set :=
| CallGetStatus (ctx : context.Context)
| CallGetPowerMeter (ctx : context.Context)
| CallGetLatestData (ctx : context.Context)
| CallHasToken.

(** One [log.Error().Err(err).Msg(msg)] line. *)
Record LogLine : Set := mkLogLine {
  logErr : error;
  logMsg : string
}.

Record World : Set := mkWorld {
  metricCh : list Metric;     (* what was sent on [chan<- prometheus.Metric] *)
  descCh : list Desc;         (* what was sent on [chan<- *prometheus.Desc] *)
  calls : list ApiCall;       (* the client operations invoked, in order *)
  logged : list LogLine;      (* the log lines written, in order *)
  unixNano : Z                (* [time.Now().UnixNano()] *)
}.

(** The world at the start of a scrape at time [now]. *)
Definition startOfScrape (now : Z) : World := mkWorld [] [] [] [] now.

(** ** The monad of the collector: state, and panics *)

Inductive Outcome (A : Type) : Type :=
| Done (a : A)
| Panic (msg : string).
Arguments Done {A} a.
Arguments Panic {A} msg.

Definition M (A : Type) : Type := World -> Outcome A * World.

Definition ret {A : Type} (a : A) : M A := fun w => (Done a, w).

Definition bind {A B : Type} (m : M A) (k : A -> M B) : M B :=
  fun w =>
    match m w with
    | (Done a, w') => k a w'
    | (Panic msg, w') => (Panic msg, w')
    end.

Notation "x <- m ;; k" := (bind m (fun x => k))
  (at level 61, m at next level, right associativity).
Notation "m ;; k" := (bind m (fun _ => k))
  (at level 61, right associativity).

(** [ch <- m] on the metric channel. *)
Definition send (m : Metric) : M unit :=
  fun w => (Done tt,
            mkWorld (metricCh w ++ [m]) (descCh w) (calls w) (logged w) (unixNano w)).

(** [ch <- d] on the descriptor channel. *)
Definition sendDesc (d : Desc) : M unit :=
  fun w => (Done tt,
            mkWorld (metricCh w) (descCh w ++ [d]) (calls w) (logged w) (unixNano w)).

Definition call (c : ApiCall) : M unit :=
  fun w => (Done tt,
            mkWorld (metricCh w) (descCh w) (calls w ++ [c]) (logged w) (unixNano w)).

Definition logError (err : error) (msg : string) : M unit :=
  fun w => (Done tt,
            mkWorld (metricCh w) (descCh w) (calls w) (logged w ++ [mkLogLine err msg])
                    (unixNano w)).

Definition timeNowUnixNano : M Z := fun w => (Done (unixNano w), w).

(** [prometheus.MustNewConstMetric]: panics where [NewConstMetric] fails. *)
Definition MustNewConstMetric (d : Desc) (t : ValueType) (v : float64)
           (lvs : list string) : M Metric :=
  match NewConstMetric d t v lvs with
  | Ok m => ret m
  | Err err => fun w => (Panic err, w)
  end.

(** The statement [ch <- prometheus.MustNewConstMetric(d, t, v, lvs...)]. *)
Definition sendConstMetric (d : Desc) (t : ValueType) (v : float64)
           (lvs : list string) : M unit :=
  m <- MustNewConstMetric d t v lvs ;; send m.

(** The client operations, as the collector invokes them. *)
Definition callGetStatus (a : api.Sonnenbatterie) (ctx : context.Context)
  : M (result api.Status) :=
  call (CallGetStatus ctx) ;; ret (api.GetStatus a ctx).

Definition callGetPowerMeter (a : api.Sonnenbatterie) (ctx : context.Context)
  : M (result (api.PowerMeter * api.PowerMeter)) :=
  call (CallGetPowerMeter ctx) ;; ret (api.GetPowerMeter a ctx).

Definition callGetLatestData (a : api.Sonnenbatterie) (ctx : context.Context)
  : M (result api.LatestData) :=
  call (CallGetLatestData ctx) ;; ret (api.GetLatestData a ctx).

Definition callHasToken (a : api.Sonnenbatterie) : M bool :=
  call CallHasToken ;; ret (api.HasToken a).

(** ** [main.go] *)

Definition timeout : time.Duration := 15 * time.Second.

Record collector : Type := mkCollector {
  api : api.Sonnenbatterie;
  gridVoltage : Desc;
  gridFrequency : Desc;
  chargePercent : Desc;
  usableChargePercent : Desc;
  consumptionPower : Desc;
  consumptionEnergy : Desc;
  productionPower : Desc;
  productionEnergy : Desc;
  lastFullyCharged : Desc;
  fullChargeCapacity : Desc;
  remaningChargeCapacity : Desc
}.

Definition newCollector (a : api.Sonnenbatterie) : collector :=
  {| api := a;
     gridVoltage :=
       NewDesc "solar_battery_grid_voltage"
               "Solar battery Grid (AC) voltage"
               ["phase"] [];
     gridFrequency :=
       NewDesc "solar_battery_grid_frequency"
               "Solar battery Grid (AC) frequency in Hz"
               [] [];
     chargePercent :=
       NewDesc "solar_battery_charge_percent"
               "Solar battery charge in percent"
               [] [];
     usableChargePercent :=
       NewDesc "solar_battery_usable_charge_percent"
               "Solar battery usable charge in percent"
               [] [];
     consumptionPower :=
       NewDesc "solar_battery_consumption_power"
               "Solar battery consumption power in watts"
               ["phase"] [];
     consumptionEnergy :=
       NewDesc "solar_battery_consumption_energy_total"
               "Total consumption measured in kwH"
               [] [];
     productionPower :=
       NewDesc "solar_battery_production_power"
               "Solar battery production power in watts"
               ["phase"] [];
     productionEnergy :=
       NewDesc "solar_battery_production_energy_total"
               "Total production measured in kwH"
               [] [];
     lastFullyCharged :=
       NewDesc "solar_battery_last_fully_charged_unix_timestamp"
               "Timestamp of last full charge"
               [] [];
     fullChargeCapacity :=
       NewDesc "solar_battery_full_charge_capacity"
               "Full charge capacity in watt hours"
               [] [];
     remaningChargeCapacity :=
       NewDesc "solar_battery_remaining_charge_capacity"
               "Remaining charge capacity in watt hours"
               [] [] |}.

(** Describe implements Collector. *)
Definition Describe (c : collector) : M unit :=
  sendDesc (gridVoltage c) ;;
  sendDesc (gridFrequency c) ;;
  sendDesc (chargePercent c) ;;
  sendDesc (usableChargePercent c) ;;
  sendDesc (consumptionPower c) ;;
  sendDesc (consumptionEnergy c) ;;
  sendDesc (productionPower c) ;;
  sendDesc (productionEnergy c).

Definition collectStatus (c : collector) : M unit :=
  let ctx := context.WithTimeout context.Background timeout in
  r <- callGetStatus (api c) ctx ;;
  match r with
  | Err err => logError err "failed to get status"
  | Ok status =>
      sendConstMetric (gridVoltage c) GaugeValue (api.Uac status) [EmptyString] ;;
      sendConstMetric (gridFrequency c) GaugeValue (api.Fac status) [] ;;
      sendConstMetric (chargePercent c) GaugeValue
                      (float64_of_int (api.Rsoc status)) [] ;;
      sendConstMetric (usableChargePercent c) GaugeValue
                      (float64_of_int (api.Usoc status)) [] ;;
      sendConstMetric (consumptionPower c) GaugeValue
                      (float64_of_int (api.ConsumptionW status)) [EmptyString] ;;
      sendConstMetric (productionPower c) GaugeValue
                      (float64_of_int (api.ProductionW status)) [EmptyString] ;;
      sendConstMetric (remaningChargeCapacity c) GaugeValue
                      (float64_of_int (api.RemainingCapacityWh status)) []
  end.

Definition collectPowerMeter (c : collector) : M unit :=
  let ctx := context.WithTimeout context.Background timeout in
  r <- callGetPowerMeter (api c) ctx ;;
  match r with
  | Err err => logError err "failed to get power meter"
  | Ok (production, consumption) =>
      sendConstMetric (gridVoltage c) GaugeValue (api.VL1N consumption) ["L1"] ;;
      sendConstMetric (gridVoltage c) GaugeValue (api.VL2N consumption) ["L2"] ;;
      sendConstMetric (gridVoltage c) GaugeValue (api.VL3N consumption) ["L3"] ;;
      sendConstMetric (gridVoltage c) GaugeValue (api.VL1L2 consumption) ["L1-L2"] ;;
      sendConstMetric (gridVoltage c) GaugeValue (api.VL2L3 consumption) ["L2-L3"] ;;
      sendConstMetric (gridVoltage c) GaugeValue (api.VL3L1 consumption) ["L3-L1"] ;;

      sendConstMetric (consumptionPower c) GaugeValue (api.WL1 consumption) ["L1"] ;;
      sendConstMetric (consumptionPower c) GaugeValue (api.WL2 consumption) ["L2"] ;;
      sendConstMetric (consumptionPower c) GaugeValue (api.WL3 consumption) ["L3"] ;;
      sendConstMetric (consumptionEnergy c) CounterValue
                      (api.KwhImported consumption) [] ;;

      sendConstMetric (productionPower c) GaugeValue (api.WL1 production) ["L1"] ;;
      sendConstMetric (productionPower c) GaugeValue (api.WL2 production) ["L2"] ;;
      sendConstMetric (productionPower c) GaugeValue (api.WL3 production) ["L3"] ;;
      sendConstMetric (productionEnergy c) CounterValue
                      (api.KwhImported production) []
  end.

Definition collectLatestData (c : collector) : M unit :=
  let ctx := context.WithTimeout context.Background timeout in
  r <- callGetLatestData (api c) ctx ;;
  match r with
  | Err err => logError err "failed to get latest data"
  | Ok latestData =>
      now <- timeNowUnixNano ;;
      sendConstMetric (lastFullyCharged c) GaugeValue
        (float64_of_int now / 1e9
         - float64_of_int (api.SecondsSinceFullCharge (api.IcStatus latestData)))%float
        [] ;;
      sendConstMetric (fullChargeCapacity c) GaugeValue
                      (float64_of_int (api.FullChargeCapacity latestData)) []
  end.

Definition Collect (c : collector) : M unit :=
  collectStatus c ;;
  hasToken <- callHasToken (api c) ;;
  if hasToken
  then collectPowerMeter c ;; collectLatestData c
  else ret tt.

(** ** Observing a run *)

(** The samples that [p] adds to the metric channel when it starts in [w]:
    [p] is run with the channel emptied. *)
Definition emits {A : Type} (p : M A) (w : World) : list Metric :=
  metricCh (snd (p (mkWorld [] (descCh w) (calls w) (logged w) (unixNano w)))).

(** The client operations that [p] invokes when it starts in [w]. *)
Definition invokes {A : Type} (p : M A) (w : World) : list ApiCall :=
  calls (snd (p (mkWorld (metricCh w) (descCh w) [] (logged w) (unixNano w)))).

(** The descriptors that [p] sends when it starts in [w]. *)
Definition describes {A : Type} (p : M A) (w : World) : list Desc :=
  descCh (snd (p (mkWorld (metricCh w) [] (calls w) (logged w) (unixNano w)))).

Definition returns {A : Type} (p : M A) (w : World) : Outcome A := fst (p w).

(** The context every step hands to its fetch. *)
Definition stepCtx : context.Context :=
  context.WithTimeout context.Background timeout.

(** A client with canned answers, and the answers of the end-to-end scenario. *)
Definition cannedClient (s : result api.Status)
           (pm : result (api.PowerMeter * api.PowerMeter))
           (ld : result api.LatestData) (tok : bool) : api.Sonnenbatterie :=
  api.mkSonnenbatterie (fun _ => s) (fun _ => pm) (fun _ => ld) tok.

Definition status0 : api.Status :=
  api.mkStatus 230%float 50%float 80 75 500 1200 4000.

Definition production0 : api.PowerMeter :=
  api.mkPowerMeter 231%float 232%float 233%float 400%float 401%float 402%float
                   300%float 400%float 500%float 1234.5%float.

Definition consumption0 : api.PowerMeter :=
  api.mkPowerMeter 229%float 228%float 227%float 398%float 397%float 396%float
                   100%float 150%float 250%float 4321.5%float.

Definition latestData0 : api.LatestData :=
  api.mkLatestData (api.mkIcStatus 3600) 10000.

Definition fullClient : api.Sonnenbatterie :=
  cannedClient (Ok status0) (Ok (production0, consumption0)) (Ok latestData0) true.

(** ** Vocabulary of the properties *)

(** The log lines of a step whose fetch answered [r]. *)
Definition logIfFailed {A : Type} (r : result A) (msg : string) : list LogLine :=
  match r with
  | Ok _ => []
  | Err err => [mkLogLine err msg]
  end.

(** The descriptors of the samples of the status step, which runs on every
    scrape, and the descriptors that only the two gated steps use. *)
Definition statusDerived (c : collector) : list Desc :=
  [gridVoltage c; gridFrequency c; chargePercent c; usableChargePercent c;
   consumptionPower c; productionPower c; remaningChargeCapacity c].

Definition capabilityGated (c : collector) : list Desc :=
  [consumptionEnergy c; productionEnergy c; lastFullyCharged c; fullChargeCapacity c].


(** A descriptor with at least one label name. *)
Definition labelled (m : Metric) : bool :=
  negb (Nat.eqb (List.length (variableLabels (desc m))) 0).

Definition energyTotals (c : collector) : list Desc :=
  [consumptionEnergy c; productionEnergy c].

Definition otherNine (c : collector) : list Desc :=
  [gridVoltage c; gridFrequency c; chargePercent c; usableChargePercent c;
   consumptionPower c; productionPower c; lastFullyCharged c;
   fullChargeCapacity c; remaningChargeCapacity c].

Definition phaseLabelled (c : collector) : list Desc :=
  [gridVoltage c; consumptionPower c; productionPower c].

Definition unlabelled (c : collector) : list Desc :=
  [gridFrequency c; chargePercent c; usableChargePercent c; consumptionEnergy c;
   productionEnergy c; lastFullyCharged c; fullChargeCapacity c;
   remaningChargeCapacity c].

(** A counter for an energy total, a gauge for one of the nine others. *)
Definition typedAsCatalogued (c : collector) (m : Metric) : Prop :=
  (In (desc m) (energyTotals c) /\ valType m = CounterValue)
  \/ (In (desc m) (otherNine c) /\ valType m = GaugeValue).

(** One label value for a phase-labelled descriptor, none for the others, and
    in both cases as many as the descriptor has label names. *)
Definition labelsMatchDesc (c : collector) (m : Metric) : Prop :=
  List.length (labelValues m) = List.length (variableLabels (desc m))
  /\ ((In (desc m) (phaseLabelled c) /\ List.length (labelValues m) = 1%nat)
      \/ (In (desc m) (unlabelled c) /\ List.length (labelValues m) = 0%nat)).

(** The production record of [fullClient] with every voltage set to zero. *)
Definition production1 : api.PowerMeter :=
  api.mkPowerMeter 0%float 0%float 0%float 0%float 0%float 0%float
                   300%float 400%float 500%float 1234.5%float.

(** The log lines that [p] writes when it starts in [w]. *)
Definition logs {A : Type} (p : M A) (w : World) : list LogLine :=
  logged (snd (p (mkWorld (metricCh w) (descCh w) (calls w) [] (unixNano w)))).

(** The eleven descriptors of a collector, in the order of the struct. *)
Definition catalog (c : collector) : list Desc :=
  [gridVoltage c; gridFrequency c; chargePercent c; usableChargePercent c;
   consumptionPower c; consumptionEnergy c; productionPower c; productionEnergy c;
   lastFullyCharged c; fullChargeCapacity c; remaningChargeCapacity c].

(** [strings.HasSuffix]. *)
Definition hasSuffix (s suffix : string) : bool :=
  Nat.leb (String.length suffix) (String.length s)
  && String.eqb (substring (String.length s - String.length suffix)
                           (String.length suffix) s)
                suffix.

Definition isCounter (m : Metric) : bool :=
  match valType m with
  | CounterValue => true
  | _ => false
  end.

Definition isLastFullyCharged (m : Metric) : bool :=
  String.eqb (fqName (desc m)) "solar_battery_last_fully_charged_unix_timestamp".

(** The same world at another time. *)
Definition atTime (now : Z) (w : World) : World :=
  mkWorld (metricCh w) (descCh w) (calls w) (logged w) now.

(** ** [run]: start-up

    [run] reads four flags and one environment variable, builds the client,
    registers three collectors, mounts two handlers and serves.  The command
    line is taken as parsed ([flag.Parse] has succeeded), and what lies behind
    the calls into other packages is given by a [Platform]. *)

Fixpoint assoc (k : string) (l : list (string * string)) : option string :=
  match l with
  | [] => None
  | (k', v) :: l' => if String.eqb k k' then Some v else assoc k l'
  end.

Module flag.

(** [flag.StringVar(&v, name, value, usage)] followed by [flag.Parse()]: the
    value given on the command line, or else the default [value]. *)
Definition StringVar (cmdline : list (string * string)) (name value : string)
  : string :=
  match assoc name cmdline with
  | Some v => v
  | None => value
  end.

End flag.

Module os.

(** [os.Getenv]: the empty string for a variable that is not set. *)
Definition Getenv (environ : list (string * string)) (key : string) : string :=
  match assoc key environ with
  | Some v => v
  | None => EmptyString
  end.

End os.

Inductive Registered : Type :=
| SonnenbatterieCollector (c : collector)
| BuildInfoCollector
| GoCollector.

Inductive RunEvent : Type :=
| EvNewSonnenbatterie (url token : string)
| EvRegister (c : Registered)
| EvHandle (pattern : string)
| EvListenAndServe (addr : string).

Record Platform : Type := mkPlatform {
  cmdline : list (string * string);      (* the flags given, as parsed *)
  environ : list (string * string);      (* the environment *)
  (* [api.NewSonnenbatterie(url, token)] *)
  newSonnenbatterie : string -> string -> result api.Sonnenbatterie;
  (* [reg.Register(c)] on a registry that holds [already]: [nil] or an error *)
  regRegister : list Registered -> Registered -> option error;
  (* [mux.Handle(pattern, h)] on a mux that holds [already]: a panic, or not *)
  muxHandle : list string -> string -> option string;
  (* [http.ListenAndServe(addr, h)]: it returns, if at all, with an error *)
  listenAndServe : string -> error
}.

(** [run] gives the calls it made, in order, and what it returns: [Done None]
    for [nil], [Done (Some err)] for an error. *)
Definition run (p : Platform) : list RunEvent * Outcome (option error) :=
  let addr := flag.StringVar (cmdline p) "listen-address" ":9110" in
  let metricsPath := flag.StringVar (cmdline p) "metrics-path" "/metrics" in
  let url := flag.StringVar (cmdline p) "sonnenbatterie-url" EmptyString in
  let token := flag.StringVar (cmdline p) "sonnenbatterie-token" EmptyString in
  if String.eqb url EmptyString
  then ([], Done (Some "no sonnenbatterie-url set"))
  else
    (* Take token from environment if not set *)
    let envToken := os.Getenv (environ p) "SONNENBATTERIE_TOKEN" in
    let token :=
      if String.eqb token EmptyString && negb (String.eqb envToken EmptyString)
      then envToken else token in
    (* create sonnenbatterie collector *)
    let evs := [EvNewSonnenbatterie url token] in
    match newSonnenbatterie p url token with
    | Err err => (evs, Done (Some err))
    | Ok a =>
      let coll := SonnenbatterieCollector (newCollector a) in
      let evs := evs ++ [EvRegister coll] in
      match regRegister p [] coll with
      | Some err => (evs, Done (Some err))
      | None =>
        (* go module build info. *)
        let evs := evs ++ [EvRegister BuildInfoCollector] in
        match regRegister p [coll] BuildInfoCollector with
        | Some err => (evs, Done (Some err))
        | None =>
          let evs := evs ++ [EvRegister GoCollector] in
          match regRegister p [coll; BuildInfoCollector] GoCollector with
          | Some err => (evs, Done (Some err))
          | None =>
            (* Expose the registered metrics via HTTP. *)
            let evs := evs ++ [EvHandle metricsPath] in
            match muxHandle p [] metricsPath with
            | Some msg => (evs, Panic msg)
            | None =>
              let evs := evs ++ [EvHandle "/"] in
              match muxHandle p [metricsPath] "/" with
              | Some msg => (evs, Panic msg)
              | None =>
                (evs ++ [EvListenAndServe addr],
                 Done (Some (listenAndServe p addr)))
              end
            end
          end
        end
      end
    end.

(** What [main] does with the result of [run]: [log.Fatal] on an error. *)
Inductive Exit : Type :=
| Returned                              (* [main] returns: exit status 0 *)
| Fatal (err : error) (msg : string)    (* [log.Fatal().Err(err).Msg(msg)] *)
| Panicked (msg : string).

Definition main (p : Platform) : list RunEvent * Exit :=
  match run p with
  | (evs, Done (Some err)) => (evs, Fatal err "failed")
  | (evs, Done None) => (evs, Returned)
  | (evs, Panic msg) => (evs, Panicked msg)
  end.

(** The token that [run] hands to the client: the flag, or else the
    environment. *)
Definition effectiveToken (p : Platform) : string :=
  if String.eqb (flag.StringVar (cmdline p) "sonnenbatterie-token" EmptyString)
                EmptyString
  then os.Getenv (environ p) "SONNENBATTERIE_TOKEN"
  else flag.StringVar (cmdline p) "sonnenbatterie-token" EmptyString.


(** * Properties *)

(** ** How each step runs

    A step on a collector built by [newCollector] never panics; it appends
    its samples, its one client call and at most one log line to the world
    it starts in, and leaves the rest alone. *)

Ltac run_step :=
  cbv [collectStatus collectPowerMeter collectLatestData Describe
       callGetStatus callGetPowerMeter callGetLatestData callHasToken
       sendConstMetric MustNewConstMetric NewConstMetric timeNowUnixNano
       send sendDesc call logError bind ret emits invokes describes returns
       newCollector NewDesc stepCtx
       api gridVoltage gridFrequency chargePercent usableChargePercent
       consumptionPower consumptionEnergy productionPower productionEnergy
       lastFullyCharged fullChargeCapacity remaningChargeCapacity
       variableLabels List.length Nat.eqb
       metricCh descCh calls logged unixNano fst snd].

Ltac tidy_world :=
  repeat rewrite <- app_assoc; repeat rewrite app_nil_r; cbn [app].

Lemma collectStatus_run (a : api.Sonnenbatterie) (w : World) :
  collectStatus (newCollector a) w =
  (Done tt,
   mkWorld (metricCh w ++ emits (collectStatus (newCollector a)) w)
           (descCh w)
           (calls w ++ [CallGetStatus stepCtx])
           (logged w ++ logIfFailed (api.GetStatus a stepCtx) "failed to get status")
           (unixNano w)).
Proof.
  destruct w as [ms ds cs ls now].
  run_step. unfold logIfFailed.
  destruct (api.GetStatus a _) as [status | err]; tidy_world; reflexivity.
Qed.

Lemma collectPowerMeter_run (a : api.Sonnenbatterie) (w : World) :
  collectPowerMeter (newCollector a) w =
  (Done tt,
   mkWorld (metricCh w ++ emits (collectPowerMeter (newCollector a)) w)
           (descCh w)
           (calls w ++ [CallGetPowerMeter stepCtx])
           (logged w
            ++ logIfFailed (api.GetPowerMeter a stepCtx) "failed to get power meter")
           (unixNano w)).
Proof.
  destruct w as [ms ds cs ls now].
  run_step. unfold logIfFailed.
  destruct (api.GetPowerMeter a _) as [[production consumption] | err];
    tidy_world; reflexivity.
Qed.

Lemma collectLatestData_run (a : api.Sonnenbatterie) (w : World) :
  collectLatestData (newCollector a) w =
  (Done tt,
   mkWorld (metricCh w ++ emits (collectLatestData (newCollector a)) w)
           (descCh w)
           (calls w ++ [CallGetLatestData stepCtx])
           (logged w
            ++ logIfFailed (api.GetLatestData a stepCtx) "failed to get latest data")
           (unixNano w)).
Proof.
  destruct w as [ms ds cs ls now].
  run_step. unfold logIfFailed.
  destruct (api.GetLatestData a _) as [latestData | err]; tidy_world; reflexivity.
Qed.

Ltac by_cases_on_client a :=
  try destruct (api.GetStatus a _) as [status | err1];
  try destruct (api.HasToken a);
  try destruct (api.GetPowerMeter a _) as [[production consumption] | err2];
  try destruct (api.GetLatestData a _) as [latestData | err3];
  tidy_world.

Lemma Collect_run (a : api.Sonnenbatterie) (w : World) :
  Collect (newCollector a) w =
  (Done tt,
   mkWorld (metricCh w ++ emits (Collect (newCollector a)) w)
           (descCh w)
           (calls w ++ invokes (Collect (newCollector a)) w)
           (logged w
            ++ logIfFailed (api.GetStatus a stepCtx) "failed to get status"
            ++ (if api.HasToken a
                then logIfFailed (api.GetPowerMeter a stepCtx) "failed to get power meter"
                     ++ logIfFailed (api.GetLatestData a stepCtx)
                                    "failed to get latest data"
                else []))
           (unixNano w)).
Proof.
  destruct w as [ms ds cs ls now].
  unfold Collect. run_step. unfold logIfFailed.
  by_cases_on_client a; reflexivity.
Qed.


(** ** Partial-failure isolation *)

(** C1: whatever the three fetches answer, [Collect] returns normally, and
    what it emits is what the status step emits on its own, followed (when
    the client has a token, so that the two steps run) by what the
    power-meter step and the latest-data step emit on their own.  A step
    whose fetch fails emits nothing, a step whose fetch succeeds emits all
    its samples (7, 14, 2), whatever the other fetches did. *)
Theorem Collect_isolates_fetch_failures (a : api.Sonnenbatterie) (w : World) :
  returns (Collect (newCollector a)) w = Done tt
  /\ metricCh (snd (Collect (newCollector a) w))
     = metricCh w ++ emits (Collect (newCollector a)) w
  /\ emits (Collect (newCollector a)) w
     = emits (collectStatus (newCollector a)) w
       ++ (if api.HasToken a
           then emits (collectPowerMeter (newCollector a)) w
                ++ emits (collectLatestData (newCollector a)) w
           else [])
  /\ List.length (emits (collectStatus (newCollector a)) w)
     = (if failed (api.GetStatus a stepCtx) then 0 else 7)%nat
  /\ List.length (emits (collectPowerMeter (newCollector a)) w)
     = (if failed (api.GetPowerMeter a stepCtx) then 0 else 14)%nat
  /\ List.length (emits (collectLatestData (newCollector a)) w)
     = (if failed (api.GetLatestData a stepCtx) then 0 else 2)%nat.
Proof.
  split; [ | split ].
  - unfold returns. now rewrite Collect_run.
  - now rewrite Collect_run.
  - destruct w as [ms ds cs ls now].
    unfold Collect. run_step.
    repeat split; by_cases_on_client a; reflexivity.
Qed.

(** ** The capability gate *)

(** C2: a client without a token is asked for its status and for the
    capability, and for nothing else: neither the power-meter fetch nor the
    latest-data fetch is invoked.  [Collect] then emits 7 samples when the
    status fetch succeeds and none when it fails. *)
Theorem Collect_without_token (a : api.Sonnenbatterie) (w : World)
        (Htoken : api.HasToken a = false) :
  invokes (Collect (newCollector a)) w = [CallGetStatus stepCtx; CallHasToken]
  /\ (forall ctx, ~ In (CallGetPowerMeter ctx) (invokes (Collect (newCollector a)) w))
  /\ (forall ctx, ~ In (CallGetLatestData ctx) (invokes (Collect (newCollector a)) w))
  /\ List.length (emits (Collect (newCollector a)) w)
     = (if failed (api.GetStatus a stepCtx) then 0 else 7)%nat.
Proof.
  assert (Hcalls : invokes (Collect (newCollector a)) w
                   = [CallGetStatus stepCtx; CallHasToken]).
  { destruct w as [ms ds cs ls now].
    unfold Collect. run_step. rewrite Htoken.
    destruct (api.GetStatus a _); reflexivity. }
  rewrite Hcalls. repeat split.
  - intros ctx [H | [H | []]]; discriminate H.
  - intros ctx [H | [H | []]]; discriminate H.
  - destruct w as [ms ds cs ls now].
    unfold Collect. run_step. rewrite Htoken.
    destruct (api.GetStatus a _); reflexivity.
Qed.

(** The scenario of a client without a token whose status fetch succeeds. *)
Lemma Collect_without_token_witness :
  api.HasToken (cannedClient (Ok status0) (Err "no token") (Err "no token") false)
  = false
  /\ invokes (Collect (newCollector
                (cannedClient (Ok status0) (Err "no token") (Err "no token") false)))
             (startOfScrape 1700000000000000000)
     = [CallGetStatus stepCtx; CallHasToken]
  /\ List.length
       (emits (Collect (newCollector
                 (cannedClient (Ok status0) (Err "no token") (Err "no token") false)))
              (startOfScrape 1700000000000000000)) = 7%nat.
Proof.
  split; [ reflexivity | ].
  pose proof (Collect_without_token
                (cannedClient (Ok status0) (Err "no token") (Err "no token") false)
                (startOfScrape 1700000000000000000) eq_refl) as [Hcalls [_ [_ Hlen]]].
  split; [ exact Hcalls | exact Hlen ].
Defined.

(** C3: with a token and three successful fetches [Collect] emits 23 samples:
    the 7 of the status step, then the 14 of the power-meter step, then the 2
    of the latest-data step. *)
Theorem Collect_all_fetches_succeed (a : api.Sonnenbatterie) (w : World)
        (status : api.Status) (production consumption : api.PowerMeter)
        (latestData : api.LatestData)
        (Htoken : api.HasToken a = true)
        (Hstatus : api.GetStatus a stepCtx = Ok status)
        (Hmeter : api.GetPowerMeter a stepCtx = Ok (production, consumption))
        (Hlatest : api.GetLatestData a stepCtx = Ok latestData) :
  List.length (emits (Collect (newCollector a)) w) = 23%nat
  /\ emits (Collect (newCollector a)) w
     = emits (collectStatus (newCollector a)) w
       ++ emits (collectPowerMeter (newCollector a)) w
       ++ emits (collectLatestData (newCollector a)) w
  /\ List.length (emits (collectStatus (newCollector a)) w) = 7%nat
  /\ List.length (emits (collectPowerMeter (newCollector a)) w) = 14%nat
  /\ List.length (emits (collectLatestData (newCollector a)) w) = 2%nat.
Proof.
  destruct w as [ms ds cs ls now].
  unfold Collect. run_step. unfold stepCtx in *.
  rewrite Htoken, Hstatus, Hmeter, Hlatest.
  repeat split.
Qed.

Lemma Collect_all_fetches_succeed_witness :
  List.length (emits (Collect (newCollector fullClient))
                     (startOfScrape 1700000000000000000)) = 23%nat.
Proof.
  exact (proj1 (Collect_all_fetches_succeed
                  fullClient (startOfScrape 1700000000000000000)
                  status0 production0 consumption0 latestData0
                  eq_refl eq_refl eq_refl eq_refl)).
Defined.

(** ** [Describe] *)

Lemma statusDerived_exported (a : api.Sonnenbatterie) (w : World) (status : api.Status) :
  api.GetStatus a stepCtx = Ok status ->
  map desc (emits (collectStatus (newCollector a)) w) = statusDerived (newCollector a).
Proof.
  intros Hstatus. destruct w as [ms ds cs ls now].
  run_step. unfold stepCtx in Hstatus. rewrite Hstatus. reflexivity.
Qed.

Lemma capabilityGated_exported (a : api.Sonnenbatterie) (w : World)
      (production consumption : api.PowerMeter) (latestData : api.LatestData) :
  api.GetPowerMeter a stepCtx = Ok (production, consumption) ->
  api.GetLatestData a stepCtx = Ok latestData ->
  forall d,
    In d (capabilityGated (newCollector a)) <->
    In d (map desc (emits (collectPowerMeter (newCollector a)) w
                    ++ emits (collectLatestData (newCollector a)) w))
    /\ ~ In d (statusDerived (newCollector a)).
Proof.
  intros Hmeter Hlatest d. destruct w as [ms ds cs ls now].
  run_step. unfold stepCtx in Hmeter, Hlatest. rewrite Hmeter, Hlatest.
  cbv [capabilityGated statusDerived newCollector NewDesc
       gridVoltage gridFrequency chargePercent usableChargePercent
       consumptionPower consumptionEnergy productionPower productionEnergy
       lastFullyCharged fullChargeCapacity remaningChargeCapacity].
  cbn [app map desc In].
  split.
  - intros H. split.
    + tauto.
    + intros Hs. repeat (destruct H as [H | H]; [ subst d | ]);
        try contradiction;
        repeat (destruct Hs as [Hs | Hs]; [ discriminate Hs | ]); contradiction.
  - intros [H Hs].
    repeat (destruct H as [H | H]; [ subst d | ]); try contradiction; tauto.
Qed.


Lemma Describe_misses_remaining_capacity :
  In (remaningChargeCapacity (newCollector fullClient))
     (statusDerived (newCollector fullClient))
  /\ ~ In (remaningChargeCapacity (newCollector fullClient))
          (describes (Describe (newCollector fullClient)) (startOfScrape 0)).
Proof.
  split.
  - cbn. tauto.
  - cbn. intros H.
    repeat (destruct H as [H | H]; [ discriminate H | ]). contradiction.
Qed.


(** ** The samples of each step *)

(** C5: when the status fetch succeeds, the labelled samples of the status
    step are three: grid voltage, consumption power and production power, each
    with the empty string as its phase; no sample of the step carries L1, L2
    or L3. *)
Theorem collectStatus_phase_is_empty (a : api.Sonnenbatterie) (w : World)
        (status : api.Status)
        (Hstatus : api.GetStatus a stepCtx = Ok status) :
  map (fun m => (desc m, labelValues m))
      (filter labelled (emits (collectStatus (newCollector a)) w))
  = [(gridVoltage (newCollector a), [EmptyString]);
     (consumptionPower (newCollector a), [EmptyString]);
     (productionPower (newCollector a), [EmptyString])]
  /\ Forall (fun m => ~ In "L1" (labelValues m)
                      /\ ~ In "L2" (labelValues m)
                      /\ ~ In "L3" (labelValues m))
            (emits (collectStatus (newCollector a)) w).
Proof.
  destruct w as [ms ds cs ls now].
  run_step. unfold stepCtx in Hstatus. rewrite Hstatus.
  split; [ reflexivity | ].
  repeat constructor; cbn; intros H;
    repeat (destruct H as [H | H]; [ discriminate H | ]); contradiction.
Qed.

Lemma collectStatus_phase_is_empty_witness :
  map (fun m => (desc m, labelValues m))
      (filter labelled
              (emits (collectStatus (newCollector fullClient)) (startOfScrape 0)))
  = [(gridVoltage (newCollector fullClient), [EmptyString]);
     (consumptionPower (newCollector fullClient), [EmptyString]);
     (productionPower (newCollector fullClient), [EmptyString])].
Proof.
  exact (proj1 (collectStatus_phase_is_empty
                  fullClient (startOfScrape 0) status0 eq_refl)).
Defined.

(** C6: when the latest-data fetch succeeds, the step emits two samples.  The
    first is the last-fully-charged time: the wall clock in seconds since the
    epoch (the nanoseconds of [time.Now()] as a [float64], divided by [1e9])
    minus the seconds since the full charge as a [float64].  The second is the
    full charge capacity.  With the clock at 1,700,000,000 s and 3600 s since
    the full charge the first value is 1,699,996,400. *)
Theorem collectLatestData_last_fully_charged (a : api.Sonnenbatterie) (w : World)
        (latestData : api.LatestData)
        (Hlatest : api.GetLatestData a stepCtx = Ok latestData) :
  emits (collectLatestData (newCollector a)) w
  = [mkMetric (lastFullyCharged (newCollector a)) GaugeValue
              (float64_of_int (unixNano w) / 1e9
               - float64_of_int
                   (api.SecondsSinceFullCharge (api.IcStatus latestData)))%float
              [];
     mkMetric (fullChargeCapacity (newCollector a)) GaugeValue
              (float64_of_int (api.FullChargeCapacity latestData)) []]
  /\ (unixNano w = 1700000000 * time.Second ->
      api.SecondsSinceFullCharge (api.IcStatus latestData) = 3600 ->
      map value (firstn 1 (emits (collectLatestData (newCollector a)) w))
      = [1699996400%float]).
Proof.
  destruct w as [ms ds cs ls now].
  run_step. unfold stepCtx in Hlatest. rewrite Hlatest.
  split; [ reflexivity | ].
  intros Hnow Hsecs. rewrite Hnow, Hsecs. vm_compute. reflexivity.
Qed.

Lemma collectLatestData_last_fully_charged_witness :
  map value
      (firstn 1 (emits (collectLatestData (newCollector fullClient))
                       (startOfScrape (1700000000 * time.Second))))
  = [1699996400%float].
Proof.
  exact (proj2 (collectLatestData_last_fully_charged
                  fullClient (startOfScrape (1700000000 * time.Second))
                  latestData0 eq_refl)
               eq_refl eq_refl).
Defined.

(** C7: when the power-meter fetch succeeds, the step emits 14 samples: six
    grid voltages for L1, L2, L3, L1-L2, L2-L3, L3-L1; three consumption
    powers for L1, L2, L3; the consumption energy total; three production
    powers for L1, L2, L3; the production energy total. *)
Theorem collectPowerMeter_samples (a : api.Sonnenbatterie) (w : World)
        (production consumption : api.PowerMeter)
        (Hmeter : api.GetPowerMeter a stepCtx = Ok (production, consumption)) :
  List.length (emits (collectPowerMeter (newCollector a)) w) = 14%nat
  /\ map (fun m => (desc m, labelValues m))
         (emits (collectPowerMeter (newCollector a)) w)
     = [(gridVoltage (newCollector a), ["L1"]);
        (gridVoltage (newCollector a), ["L2"]);
        (gridVoltage (newCollector a), ["L3"]);
        (gridVoltage (newCollector a), ["L1-L2"]);
        (gridVoltage (newCollector a), ["L2-L3"]);
        (gridVoltage (newCollector a), ["L3-L1"]);
        (consumptionPower (newCollector a), ["L1"]);
        (consumptionPower (newCollector a), ["L2"]);
        (consumptionPower (newCollector a), ["L3"]);
        (consumptionEnergy (newCollector a), []);
        (productionPower (newCollector a), ["L1"]);
        (productionPower (newCollector a), ["L2"]);
        (productionPower (newCollector a), ["L3"]);
        (productionEnergy (newCollector a), [])].
Proof.
  destruct w as [ms ds cs ls now].
  run_step. unfold stepCtx in Hmeter. rewrite Hmeter.
  split; reflexivity.
Qed.

Lemma collectPowerMeter_samples_witness :
  List.length (emits (collectPowerMeter (newCollector fullClient)) (startOfScrape 0))
  = 14%nat.
Proof.
  exact (proj1 (collectPowerMeter_samples
                  fullClient (startOfScrape 0) production0 consumption0 eq_refl)).
Defined.

(** ** Invariants of every emitted sample *)

(** The eleven descriptors of a collector are pairwise different, so that the
    two cases of [typedAsCatalogued], and of [labelsMatchDesc], exclude each
    other. *)
Lemma descriptors_distinct (a : api.Sonnenbatterie) :
  NoDup (energyTotals (newCollector a) ++ otherNine (newCollector a))
  /\ NoDup (phaseLabelled (newCollector a) ++ unlabelled (newCollector a)).
Proof.
  split; cbn;
    repeat (constructor;
            [ cbn; intros H;
              repeat (destruct H as [H | H]; [ discriminate H | ]); contradiction
            | ]);
    constructor.
Qed.

Ltac each_sample tac :=
  repeat (apply Forall_cons; [ tac | ]); apply Forall_nil.

(** C8: every sample that [Collect], or one of its three steps, emits for the
    consumption energy total or the production energy total is a counter,
    and every sample of the nine other metrics is a gauge. *)
Theorem samples_typed_as_catalogued (a : api.Sonnenbatterie) (w : World) :
  Forall (typedAsCatalogued (newCollector a)) (emits (Collect (newCollector a)) w)
  /\ Forall (typedAsCatalogued (newCollector a))
            (emits (collectStatus (newCollector a)) w)
  /\ Forall (typedAsCatalogued (newCollector a))
            (emits (collectPowerMeter (newCollector a)) w)
  /\ Forall (typedAsCatalogued (newCollector a))
            (emits (collectLatestData (newCollector a)) w).
Proof.
  destruct w as [ms ds cs ls now].
  unfold Collect. run_step.
  repeat split; by_cases_on_client a;
    each_sample ltac:(unfold typedAsCatalogued; cbn; tauto).
Qed.

(** C9: every sample that [Collect], or one of its three steps, emits has as
    many label values as its descriptor has label names: one for grid
    voltage, consumption power and production power, none for the others. *)
Theorem samples_label_arity (a : api.Sonnenbatterie) (w : World) :
  Forall (labelsMatchDesc (newCollector a)) (emits (Collect (newCollector a)) w)
  /\ Forall (labelsMatchDesc (newCollector a))
            (emits (collectStatus (newCollector a)) w)
  /\ Forall (labelsMatchDesc (newCollector a))
            (emits (collectPowerMeter (newCollector a)) w)
  /\ Forall (labelsMatchDesc (newCollector a))
            (emits (collectLatestData (newCollector a)) w).
Proof.
  destruct w as [ms ds cs ls now].
  unfold Collect. run_step.
  repeat split; by_cases_on_client a;
    each_sample ltac:(unfold labelsMatchDesc; cbn; tauto).
Qed.

(** ** Where the per-phase voltages come from *)

(** C10: when the power-meter fetch succeeds, the first six samples of the
    power-meter step are the grid voltages, with the six voltage fields of
    the consumption record as their values, and no later sample of the step is
    a grid voltage.  The voltage fields of the production record reach no
    output: a client that answers with other production voltages, and with
    the same answers otherwise, makes [Collect] emit the same samples and
    [Describe] send the same descriptors. *)
Theorem grid_voltages_from_consumption
        (a a' : api.Sonnenbatterie) (w : World)
        (production production' consumption : api.PowerMeter)
        (Hmeter : api.GetPowerMeter a stepCtx = Ok (production, consumption))
        (Hmeter' : api.GetPowerMeter a' stepCtx = Ok (production', consumption))
        (HWL1 : api.WL1 production' = api.WL1 production)
        (HWL2 : api.WL2 production' = api.WL2 production)
        (HWL3 : api.WL3 production' = api.WL3 production)
        (HKwh : api.KwhImported production' = api.KwhImported production)
        (Hstatus : api.GetStatus a' stepCtx = api.GetStatus a stepCtx)
        (Hlatest : api.GetLatestData a' stepCtx = api.GetLatestData a stepCtx)
        (Htoken : api.HasToken a' = api.HasToken a) :
  map (fun m => (desc m, value m, labelValues m))
      (firstn 6 (emits (collectPowerMeter (newCollector a)) w))
  = [(gridVoltage (newCollector a), api.VL1N consumption, ["L1"]);
     (gridVoltage (newCollector a), api.VL2N consumption, ["L2"]);
     (gridVoltage (newCollector a), api.VL3N consumption, ["L3"]);
     (gridVoltage (newCollector a), api.VL1L2 consumption, ["L1-L2"]);
     (gridVoltage (newCollector a), api.VL2L3 consumption, ["L2-L3"]);
     (gridVoltage (newCollector a), api.VL3L1 consumption, ["L3-L1"])]
  /\ Forall (fun m => desc m <> gridVoltage (newCollector a))
            (skipn 6 (emits (collectPowerMeter (newCollector a)) w))
  /\ emits (collectPowerMeter (newCollector a')) w
     = emits (collectPowerMeter (newCollector a)) w
  /\ emits (Collect (newCollector a')) w = emits (Collect (newCollector a)) w
  /\ describes (Describe (newCollector a')) w
     = describes (Describe (newCollector a)) w.
Proof.
  destruct w as [ms ds cs ls now].
  unfold Collect. run_step. unfold stepCtx in *.
  rewrite Htoken, Hstatus, Hlatest, Hmeter', Hmeter, HWL1, HWL2, HWL3, HKwh.
  split; [ reflexivity | ].
  split; [ cbn; each_sample ltac:(cbn; discriminate) | ].
  repeat split.
Qed.

Lemma grid_voltages_from_consumption_witness :
  emits (Collect (newCollector
           (cannedClient (Ok status0) (Ok (production1, consumption0))
                         (Ok latestData0) true)))
        (startOfScrape 0)
  = emits (Collect (newCollector fullClient)) (startOfScrape 0).
Proof.
  exact (proj1 (proj2 (proj2 (proj2
           (grid_voltages_from_consumption
              fullClient
              (cannedClient (Ok status0) (Ok (production1, consumption0))
                            (Ok latestData0) true)
              (startOfScrape 0) production0 production1 consumption0
              eq_refl eq_refl eq_refl eq_refl eq_refl eq_refl
              eq_refl eq_refl eq_refl))))).
Defined.

(** * Further properties of the collector *)

Ltac cases_on_client a :=
  try destruct (api.GetStatus a _) as [status | err1];
  try destruct (api.HasToken a);
  try destruct (api.GetPowerMeter a _) as [[production consumption] | err2];
  try destruct (api.GetLatestData a _) as [latestData | err3].

(** ** Logging *)

(** X1: [Collect] writes one log line for each fetch that it ran and that
    failed, with the error of the fetch and the message of its step, in the
    order of the steps, and it writes nothing else; a step logs one line
    when its fetch fails and none when it succeeds. *)
Theorem Collect_logs_each_failure (a : api.Sonnenbatterie) (w : World) :
  logs (Collect (newCollector a)) w
  = logIfFailed (api.GetStatus a stepCtx) "failed to get status"
    ++ (if api.HasToken a
        then logIfFailed (api.GetPowerMeter a stepCtx) "failed to get power meter"
             ++ logIfFailed (api.GetLatestData a stepCtx) "failed to get latest data"
        else [])
  /\ logged (snd (Collect (newCollector a) w))
     = logged w ++ logs (Collect (newCollector a)) w
  /\ (List.length (logs (collectStatus (newCollector a)) w)
      = (if failed (api.GetStatus a stepCtx) then 1 else 0)%nat)
  /\ (List.length (logs (collectPowerMeter (newCollector a)) w)
      = (if failed (api.GetPowerMeter a stepCtx) then 1 else 0)%nat)
  /\ (List.length (logs (collectLatestData (newCollector a)) w)
      = (if failed (api.GetLatestData a stepCtx) then 1 else 0)%nat).
Proof.
  destruct w as [ms ds cs ls now].
  unfold logs, Collect. run_step. unfold logIfFailed.
  repeat split; cases_on_client a; try reflexivity; tidy_world; reflexivity.
Qed.

(** ** The calls to the client *)


(** ** The values of the samples *)

(** X3: when the status fetch succeeds, the seven samples of the status step
    carry, in this order, the fields [Uac], [Fac], [Rsoc], [Usoc],
    [ConsumptionW], [ProductionW] and [RemainingCapacityWh] of the answer,
    the integer fields converted to [float64], under the metric names
    below. *)
Theorem collectStatus_values (a : api.Sonnenbatterie) (w : World)
        (status : api.Status)
        (Hstatus : api.GetStatus a stepCtx = Ok status) :
  map (fun m => (fqName (desc m), value m))
      (emits (collectStatus (newCollector a)) w)
  = [("solar_battery_grid_voltage", api.Uac status);
     ("solar_battery_grid_frequency", api.Fac status);
     ("solar_battery_charge_percent", float64_of_int (api.Rsoc status));
     ("solar_battery_usable_charge_percent", float64_of_int (api.Usoc status));
     ("solar_battery_consumption_power", float64_of_int (api.ConsumptionW status));
     ("solar_battery_production_power", float64_of_int (api.ProductionW status));
     ("solar_battery_remaining_charge_capacity",
      float64_of_int (api.RemainingCapacityWh status))].
Proof.
  destruct w as [ms ds cs ls now].
  run_step. unfold stepCtx in Hstatus. rewrite Hstatus. reflexivity.
Qed.

Lemma collectStatus_values_witness :
  map (fun m => (fqName (desc m), value m))
      (emits (collectStatus (newCollector fullClient)) (startOfScrape 0))
  = [("solar_battery_grid_voltage", 230%float);
     ("solar_battery_grid_frequency", 50%float);
     ("solar_battery_charge_percent", 80%float);
     ("solar_battery_usable_charge_percent", 75%float);
     ("solar_battery_consumption_power", 500%float);
     ("solar_battery_production_power", 1200%float);
     ("solar_battery_remaining_charge_capacity", 4000%float)].
Proof.
  exact (collectStatus_values fullClient (startOfScrape 0) status0 eq_refl).
Defined.

(** X4: when the power-meter fetch succeeds, the consumption powers and the
    consumption energy total carry [WL1], [WL2], [WL3] and [KwhImported] of
    the consumption record, and the production powers and the production
    energy total carry the same fields of the production record: the two
    records are not mixed up. *)
Theorem collectPowerMeter_values (a : api.Sonnenbatterie) (w : World)
        (production consumption : api.PowerMeter)
        (Hmeter : api.GetPowerMeter a stepCtx = Ok (production, consumption)) :
  map (fun m => (fqName (desc m), labelValues m, value m))
      (skipn 6 (emits (collectPowerMeter (newCollector a)) w))
  = [("solar_battery_consumption_power", ["L1"], api.WL1 consumption);
     ("solar_battery_consumption_power", ["L2"], api.WL2 consumption);
     ("solar_battery_consumption_power", ["L3"], api.WL3 consumption);
     ("solar_battery_consumption_energy_total", [], api.KwhImported consumption);
     ("solar_battery_production_power", ["L1"], api.WL1 production);
     ("solar_battery_production_power", ["L2"], api.WL2 production);
     ("solar_battery_production_power", ["L3"], api.WL3 production);
     ("solar_battery_production_energy_total", [], api.KwhImported production)].
Proof.
  destruct w as [ms ds cs ls now].
  run_step. unfold stepCtx in Hmeter. rewrite Hmeter. reflexivity.
Qed.

Lemma collectPowerMeter_values_witness :
  map (fun m => (fqName (desc m), labelValues m, value m))
      (skipn 6 (emits (collectPowerMeter (newCollector fullClient)) (startOfScrape 0)))
  = [("solar_battery_consumption_power", ["L1"], 100%float);
     ("solar_battery_consumption_power", ["L2"], 150%float);
     ("solar_battery_consumption_power", ["L3"], 250%float);
     ("solar_battery_consumption_energy_total", [], 4321.5%float);
     ("solar_battery_production_power", ["L1"], 300%float);
     ("solar_battery_production_power", ["L2"], 400%float);
     ("solar_battery_production_power", ["L3"], 500%float);
     ("solar_battery_production_energy_total", [], 1234.5%float)].
Proof.
  exact (collectPowerMeter_values fullClient (startOfScrape 0)
                                  production0 consumption0 eq_refl).
Defined.

(** ** What a scrape depends on *)


(** X5: [Describe] only sends descriptors, for every collector: it returns
    normally, sends eight of them, emits no sample, invokes no operation of
    the client, logs nothing and leaves the clock as it is.  [Collect] in
    turn sends no descriptor. *)
Theorem Describe_does_not_touch_the_device (c : collector)
        (a : api.Sonnenbatterie) (w : World) :
  returns (Describe c) w = Done tt
  /\ List.length (describes (Describe c) w) = 8%nat
  /\ emits (Describe c) w = []
  /\ invokes (Describe c) w = []
  /\ logs (Describe c) w = []
  /\ unixNano (snd (Describe c w)) = unixNano w
  /\ describes (Collect (newCollector a)) w = []
  /\ descCh (snd (Collect (newCollector a) w)) = descCh w.
Proof.
  split; [ reflexivity | ].
  split; [ reflexivity | ].
  split; [ reflexivity | ].
  split; [ reflexivity | ].
  split; [ reflexivity | ].
  split; [ reflexivity | ].
  split.
  - destruct w as [ms ds cs ls now].
    unfold Collect. run_step. cases_on_client a; reflexivity.
  - now rewrite Collect_run.
Qed.

(** X6: the eleven descriptors that [newCollector] builds have eleven
    different metric names, all of them starting with [solar_battery_]; the
    three for grid voltage, consumption power and production power have the
    one label name [phase], the eight others have none. *)
Theorem newCollector_catalog (a : api.Sonnenbatterie) :
  List.length (catalog (newCollector a)) = 11%nat
  /\ NoDup (map fqName (catalog (newCollector a)))
  /\ Forall (fun d => String.prefix "solar_battery_" (fqName d) = true)
            (catalog (newCollector a))
  /\ Forall (fun d => variableLabels d = ["phase"]) (phaseLabelled (newCollector a))
  /\ Forall (fun d => variableLabels d = []) (unlabelled (newCollector a))
  /\ Forall (fun d => constLabels d = []) (catalog (newCollector a)).
Proof.
  split; [ reflexivity | ].
  split.
  - cbn.
    repeat (constructor;
            [ cbn; intros H;
              repeat (destruct H as [H | H]; [ discriminate H | ]); contradiction
            | ]);
      constructor.
  - repeat split; cbn; each_sample ltac:(reflexivity).
Qed.

(** X7: a sample that [Collect] emits is a counter exactly when the name of
    its metric ends in [_total]; the two names of the catalog that end in
    [_total] are the two energy totals. *)
Theorem counters_are_the_totals (a : api.Sonnenbatterie) (w : World) :
  Forall (fun m => isCounter m = hasSuffix (fqName (desc m)) "_total")
         (emits (Collect (newCollector a)) w)
  /\ filter (fun d => hasSuffix (fqName d) "_total") (catalog (newCollector a))
     = energyTotals (newCollector a).
Proof.
  split; [ | reflexivity ].
  destruct w as [ms ds cs ls now].
  unfold Collect. run_step.
  cases_on_client a; each_sample ltac:(reflexivity).
Qed.



(** X9: of all that a scrape emits, only the value of the last-fully-charged
    sample depends on the clock: two scrapes of one client, started in any
    two worlds, emit the same samples apart from that one, and samples with
    the same descriptors, types and label values throughout. *)
Theorem only_last_fully_charged_reads_the_clock
        (a : api.Sonnenbatterie) (w w' : World) :
  filter (fun m => negb (isLastFullyCharged m)) (emits (Collect (newCollector a)) w)
  = filter (fun m => negb (isLastFullyCharged m)) (emits (Collect (newCollector a)) w')
  /\ map (fun m => (desc m, valType m, labelValues m))
         (emits (Collect (newCollector a)) w)
     = map (fun m => (desc m, valType m, labelValues m))
           (emits (Collect (newCollector a)) w')
  /\ Nat.leb (List.length (filter isLastFullyCharged
                                    (emits (Collect (newCollector a)) w))) 1
     = true.
Proof.
  destruct w as [ms ds cs ls now], w' as [ms' ds' cs' ls' now'].
  unfold Collect. run_step.
  repeat split; cases_on_client a;
    cbv -[float64_of_int PrimFloat.div PrimFloat.sub]; reflexivity.
Qed.

(** X10: the samples of one scrape are pairwise different in metric name and
    label values, whatever the client answers, so that no series is emitted
    twice in a scrape. *)
Theorem samples_are_distinct_series (a : api.Sonnenbatterie) (w : World) :
  NoDup (map (fun m => (fqName (desc m), labelValues m))
             (emits (Collect (newCollector a)) w)).
Proof.
  destruct w as [ms ds cs ls now].
  unfold Collect. run_step.
  cases_on_client a; cbv [map fqName desc labelValues];
    repeat (constructor;
            [ cbn; intros H;
              repeat (destruct H as [H | H]; [ discriminate H | ]); contradiction
            | ]);
    constructor.
Qed.

(** * Properties of the start-up *)


(** The token that [run] settles on. *)
Lemma token_choice (token envToken : string) :
  (if String.eqb token EmptyString && negb (String.eqb envToken EmptyString)
   then envToken else token)
  = (if String.eqb token EmptyString then envToken else token).
Proof.
  destruct (String.eqb token EmptyString) eqn:Htok;
    destruct (String.eqb envToken EmptyString) eqn:Henv; cbn; try reflexivity.
  apply String.eqb_eq in Htok, Henv. congruence.
Qed.

Ltac run_step_by_step p :=
  unfold run; rewrite token_choice;
  change (if String.eqb (flag.StringVar (cmdline p) "sonnenbatterie-token" EmptyString)
                        EmptyString
          then os.Getenv (environ p) "SONNENBATTERIE_TOKEN"
          else flag.StringVar (cmdline p) "sonnenbatterie-token" EmptyString)
    with (effectiveToken p).









(** X15: [run] never returns [nil], given that [http.ListenAndServe] returns
    with an error only; so [main] never returns normally: whenever [run]
    returns, [main] ends in [log.Fatal] with the error of [run] and the
    message [failed], after the same calls. *)
Theorem main_never_returns (p : Platform) :
  snd (run p) <> Done None
  /\ snd (main p) <> Returned
  /\ fst (main p) = fst (run p)
  /\ (forall err, snd (run p) = Done (Some err) -> snd (main p) = Fatal err "failed").
Proof.
  unfold main. run_step_by_step p.
  destruct (String.eqb _ EmptyString);
    [ cbn; repeat split; try discriminate; intros err [= <-]; reflexivity | ].
  destruct (newSonnenbatterie p _ _) as [a | err0];
    [ | cbn; repeat split; try discriminate; intros err [= <-]; reflexivity ].
  destruct (regRegister p [] _);
    [ cbn; repeat split; try discriminate; intros err [= <-]; reflexivity | ].
  destruct (regRegister p [_] _);
    [ cbn; repeat split; try discriminate; intros err [= <-]; reflexivity | ].
  destruct (regRegister p [_; _] _);
    [ cbn; repeat split; try discriminate; intros err [= <-]; reflexivity | ].
  destruct (muxHandle p [] _);
    [ cbn; repeat split; discriminate | ].
  destruct (muxHandle p [_] _);
    [ cbn; repeat split; discriminate | ].
  cbn; repeat split; try discriminate; intros err [= <-]; reflexivity.
Qed.
